(** * sales-bonus: the seller report of [analyzeSalesData] (src/main.js)

    A shallow embedding of [calculateSimpleRevenue], [calculateBonusByProfit]
    and [analyzeSalesData], and the properties of the report they produce.

    Modelling conventions.
    - A JavaScript number is a value of a type [num] that carries the
      operations the program uses ([JsNumber]).  Its instance is IEEE-754
      binary64 (Rocq's primitive floats), with NaN, the infinities and the
      two zeros.  What the ranking and the counters need of the comparisons,
      the subtraction and the addition of doubles is proved from the
      specification of the primitive floats.
    - The array [sellerStats] is a list; the objects in it are mutated through
      [sellerIndex], so [sellerIndex] maps an identifier to the position of
      the object in [sellerStats] (a reference), and a purchase record updates
      the list in place at that position.
    - [sellerIndex], [productIndex] and [products_sold] are objects created by
      an object literal and are modelled by their own properties.  For a key
      that names a member of [Object.prototype] ([Object_prototype]) the
      program finds that member and leaves the typed data (a [TypeError], NaN
      or a string); the model does not follow it there.  The properties about
      absent keys and about the counters are stated for inputs with
      [ordinary_keys].
    - [products_sold] is enumerated by [Object.entries], so it keeps its
      properties in creation order, and [Object_entries] applies the
      enumeration order of an ordinary object.
    - [Array.prototype.sort] is stable; it is modelled by a stable insertion
      sort, which is what every stable sort computes when the comparator is
      consistent.  With a NaN among the compared numbers the comparator is
      not consistent and the order is left to the implementation; the
      properties about the order are stated for numbers. *)

From Stdlib Require Import ZArith Floats Lia DecimalString.
From stdpp Require Import gmap strings list.

Set Warnings "-inexact-float,-clear-no-such-hyp".

(** ** JavaScript numbers *)

Class JsNumber (num : Type) := {
  lit_0 : num;                       (* 0 *)
  lit_1 : num;                       (* 1 *)
  lit_100 : num;                     (* 100 *)
  lit_0_15 : num;                    (* 0.15 *)
  lit_0_10 : num;                    (* 0.10 *)
  lit_0_05 : num;                    (* 0.05 *)
  num_add : num → num → num;         (* a + b *)
  num_sub : num → num → num;         (* a - b *)
  num_mul : num → num → num;         (* a * b *)
  num_div : num → num → num;         (* a / b *)
  num_gt0 : num → bool;              (* v > 0, as sort reads a comparator's result *)
  num_truthy : num → bool;           (* ToBoolean(v): false for 0 and NaN *)
  num_le : num → num → bool;         (* a <= b *)
  toFixed2 : num → num               (* +v.toFixed(2) *)
}.

Declare Scope js_scope.
Delimit Scope js_scope with js.
Infix "+" := num_add : js_scope.
Infix "-" := num_sub : js_scope.
Infix "*" := num_mul : js_scope.
Infix "/" := num_div : js_scope.

(** ** Data model *)

Module Seller.
Record t := { id : string; first_name : string; last_name : string }.
End Seller.

Module Product.
Record t (num : Type) := { sku : string; purchase_price : num }.
Arguments sku {num} _.
Arguments purchase_price {num} _.
End Product.

Module Item.
Record t (num : Type) :=
  { sku : string; quantity : num; sale_price : num; discount : num }.
Arguments sku {num} _.
Arguments quantity {num} _.
Arguments sale_price {num} _.
Arguments discount {num} _.
End Item.

Module Purchase.
Record t (num : Type) := { seller_id : string; items : list (Item.t num) }.
Arguments seller_id {num} _.
Arguments items {num} _.
End Purchase.

(** The statistics object of a seller, an element of [sellerStats]. *)
Module Stats.
Record t (num : Type) := {
  id : string;
  name : string;
  revenue : num;
  profit : num;
  sales_count : nat;
  products_sold : list (string * num)
}.
Arguments id {num} _.
Arguments name {num} _.
Arguments revenue {num} _.
Arguments profit {num} _.
Arguments sales_count {num} _.
Arguments products_sold {num} _.
End Stats.

Module Top.
Record t (num : Type) := { sku : string; quantity : num }.
Arguments sku {num} _.
Arguments quantity {num} _.
End Top.

(** A statistics object once step 3 has set [bonus] and [top_products]. *)
Module Ranked.
Record t (num : Type) := {
  stats : Stats.t num;
  bonus : num;
  top_products : list (Top.t num)
}.
Arguments stats {num} _.
Arguments bonus {num} _.
Arguments top_products {num} _.
End Ranked.

Module Entry.
Record t (num : Type) := {
  seller_id : string;
  name : string;
  revenue : num;
  profit : num;
  sales_count : nat;
  top_products : list (Top.t num);
  bonus : num
}.
Arguments seller_id {num} _.
Arguments name {num} _.
Arguments revenue {num} _.
Arguments profit {num} _.
Arguments sales_count {num} _.
Arguments top_products {num} _.
Arguments bonus {num} _.
End Entry.

(** The value of a property that the validation tests with [Array.isArray]. *)
Inductive js_field (A : Type) : Type :=
  | Absent                       (* undefined: no such property *)
  | NotArray                     (* some value that is not an array *)
  | IsArray (l : list A).
Arguments Absent {A}.
Arguments NotArray {A}.
Arguments IsArray {A} l.

Module Data.
Record t (num : Type) := {
  sellers : js_field Seller.t;
  products : js_field (Product.t num);
  purchase_records : js_field (Purchase.t num);
  customers : js_field string
}.
Arguments sellers {num} _.
Arguments products {num} _.
Arguments purchase_records {num} _.
Arguments customers {num} _.
End Data.

(** The first argument of [analyzeSalesData]. *)
Inductive data_arg (num : Type) : Type :=
  | DataFalsy                    (* undefined, null, 0, '', false, NaN *)
  | DataPrimitive                (* a truthy primitive: it has none of the properties *)
  | DataObject (data : Data.t num).
Arguments DataFalsy {num}.
Arguments DataPrimitive {num}.
Arguments DataObject {num} data.

(** The value of a property that the validation tests with [typeof]. *)
Inductive js_prop (F : Type) : Type :=
  | PropFalsy                    (* undefined, null or another falsy value *)
  | PropNotFunction              (* a truthy value that is not a function *)
  | PropFunction (f : F).
Arguments PropFalsy {F}.
Arguments PropNotFunction {F}.
Arguments PropFunction {F} f.

Module Options.
Record t (num : Type) := {
  calculateRevenue : js_prop (Item.t num → option (Product.t num) → num);
  calculateBonus : js_prop (Z → Z → Stats.t num → num)
}.
Arguments calculateRevenue {num} _.
Arguments calculateBonus {num} _.
End Options.

(** The second argument of [analyzeSalesData]. *)
Inductive options_arg (num : Type) : Type :=
  | OptionsFalsy                 (* undefined, null, ... *)
  | OptionsNotObject             (* truthy, with typeof options !== 'object' *)
  | OptionsObject (options : Options.t num).
Arguments OptionsFalsy {num}.
Arguments OptionsNotObject {num}.
Arguments OptionsObject {num} options.

(** The four [throw new Error(...)] of [analyzeSalesData], in source order. *)
Inductive error : Type :=
  | InvalidInputData             (* data must hold non-empty arrays ... *)
  | OptionsNotAnObject           (* options must be an object *)
  | OptionsMissingFunctions      (* options must hold calculateRevenue and calculateBonus *)
  | OptionsNotFunctions.         (* calculateRevenue and calculateBonus must be functions *)

Inductive outcome (A : Type) : Type :=
  | Return (a : A)
  | Throw (e : error).
Arguments Return {A} a.
Arguments Throw {A} e.

(** ** Arrays and objects of the JavaScript runtime *)

(** [Array.prototype.sort(comparefn)]: [after a b] is [comparefn(a, b) > 0],
    "a is placed after b".  The sort is stable, and a comparator that returns
    NaN reports a tie.  When the comparator is not consistent the order is
    left to the implementation; two elements are ordered as here by every
    implementation. *)
Fixpoint js_insert {A : Type} (after : A → A → bool) (x : A) (l : list A) : list A :=
  match l with
  | [] => [x]
  | y :: l' => if after x y then y :: js_insert after x l' else x :: y :: l'
  end.

Fixpoint js_sort {A : Type} (after : A → A → bool) (l : list A) : list A :=
  match l with
  | [] => []
  | x :: l' => js_insert after x (js_sort after l')
  end.

(** [o[k]] on the own properties of an object. *)
Fixpoint obj_get {V : Type} (o : list (string * V)) (k : string) : option V :=
  match o with
  | [] => None
  | (k', v) :: o' => if decide (k' = k) then Some v else obj_get o' k
  end.

(** [o[k] = v]: an existing property keeps its place, a new one is created
    after the others. *)
Fixpoint obj_set {V : Type} (o : list (string * V)) (k : string) (v : V)
  : list (string * V) :=
  match o with
  | [] => [(k, v)]
  | (k', v') :: o' =>
      if decide (k' = k) then (k, v) :: o' else (k', v') :: obj_set o' k v
  end.

(** An array index is the canonical decimal form of an integer below
    2^32 - 1: ["0"], ["7"], ["42"], but not ["007"], ["-1"], ["SKU_1"]. *)
Definition array_index (k : string) : option N :=
  match NilEmpty.uint_of_string k with
  | Some u =>
      let n := N.of_uint u in
      if decide (NilEmpty.string_of_uint (N.to_uint n) = k) then
        if (n <? 2 ^ 32 - 1)%N then Some n else None
      else None
  | None => None
  end.

Definition is_array_index (k : string) : bool :=
  match array_index k with Some _ => true | None => false end.

Definition index_after (k1 k2 : string) : bool :=
  match array_index k1, array_index k2 with
  | Some n1, Some n2 => (n2 <? n1)%N
  | _, _ => false
  end.

(** [Object.entries(o)]: the array-index keys in ascending numeric order,
    then the other keys in the order of their creation. *)
Definition Object_entries {V : Type} (o : list (string * V)) : list (string * V) :=
  js_sort (λ e1 e2, index_after e1.1 e2.1) (filter (λ e, is_array_index e.1 = true) o)
  ++ filter (λ e, is_array_index e.1 = false) o.

(** ** The program *)

Section Program.
Context {num : Type} `{JsNumber num}.
Local Open Scope js_scope.

Definition calculateSimpleRevenue
    (purchase : Item.t num) (_product : option (Product.t num)) : num :=
  let discountCoefficient := lit_1 - (Item.discount purchase / lit_100) in
  let revenue := Item.sale_price purchase * Item.quantity purchase * discountCoefficient in
  revenue.

Definition calculateBonusByProfit (index total : Z) (seller : Stats.t num) : num :=
  let profit := Stats.profit seller in
  if (index =? 0)%Z then profit * lit_0_15
  else if (index =? 1)%Z || (index =? 2)%Z then profit * lit_0_10
  else if (index =? total - 1)%Z then lit_0
  else profit * lit_0_05.

(** *** Validation *)

Definition isArray {A : Type} (f : js_field A) : bool :=
  match f with IsArray _ => true | _ => false end.

Definition elements {A : Type} (f : js_field A) : list A :=
  match f with IsArray l => l | _ => [] end.

(** [data.sellers] and the like; a primitive has none of the properties. *)
Definition get_sellers (data : data_arg num) : js_field Seller.t :=
  match data with DataObject data => Data.sellers data | _ => Absent end.

Definition get_products (data : data_arg num) : js_field (Product.t num) :=
  match data with DataObject data => Data.products data | _ => Absent end.

Definition get_purchase_records (data : data_arg num) : js_field (Purchase.t num) :=
  match data with DataObject data => Data.purchase_records data | _ => Absent end.

Definition get_customers (data : data_arg num) : js_field string :=
  match data with DataObject data => Data.customers data | _ => Absent end.

Definition falsy_data (data : data_arg num) : bool :=
  match data with DataFalsy => true | _ => false end.

(** The condition of the first [if]. *)
Definition invalid_data (data : data_arg num) : bool :=
  falsy_data data
  || negb (isArray (get_sellers data))
  || negb (isArray (get_products data))
  || negb (isArray (get_purchase_records data))
  || negb (isArray (get_customers data))
  || (length (elements (get_sellers data)) =? 0)%nat
  || (length (elements (get_products data)) =? 0)%nat
  || (length (elements (get_purchase_records data)) =? 0)%nat.

(** *** Step 0: statistics objects and the two indexes *)

Definition init_stats (seller : Seller.t) : Stats.t num :=
  {| Stats.id := Seller.id seller;
     Stats.name := Seller.first_name seller +:+ " " +:+ Seller.last_name seller;
     Stats.revenue := lit_0;
     Stats.profit := lit_0;
     Stats.sales_count := 0;
     Stats.products_sold := [] |}.

(** [sellerStats.reduce((result, seller) => { result[seller.id] = seller; ... }, {})]:
    [result[seller.id]] refers to the object at position [i] of [sellerStats]. *)
Fixpoint index_sellers (i : nat) (sellerStats : list (Stats.t num))
    (result : gmap string nat) : gmap string nat :=
  match sellerStats with
  | [] => result
  | seller :: rest => index_sellers (S i) rest (<[Stats.id seller := i]> result)
  end.

Definition index_products (products : list (Product.t num))
  : gmap string (Product.t num) :=
  foldl (λ result product, <[Product.sku product := product]> result) ∅ products.

(** *** Step 1: purchase records and their items *)

(** The body of [record.items.forEach].  [productIndex[item.sku]] and
    [seller.products_sold[item.sku]] are read among the own properties, which
    is what the program reads when the SKU is no member name of
    [Object.prototype]. *)
Definition process_item
    (calculateRevenue : Item.t num → option (Product.t num) → num)
    (productIndex : gmap string (Product.t num))
    (seller : Stats.t num) (item : Item.t num) : Stats.t num :=
  let product := productIndex !! Item.sku item in
  let cost :=
    match product with
    | Some product => Product.purchase_price product * Item.quantity item
    | None => lit_0
    end in
  let revenue := calculateRevenue item product in
  let seller_revenue := Stats.revenue seller + revenue in
  let profit := revenue - cost in
  let seller_profit := Stats.profit seller + profit in
  (* if (!seller.products_sold[item.sku]) seller.products_sold[item.sku] = 0; *)
  let sold :=
    match obj_get (Stats.products_sold seller) (Item.sku item) with
    | Some q => if num_truthy q then Stats.products_sold seller
                else obj_set (Stats.products_sold seller) (Item.sku item) lit_0
    | None => obj_set (Stats.products_sold seller) (Item.sku item) lit_0
    end in
  (* seller.products_sold[item.sku] += item.quantity; the property exists here *)
  let sold :=
    match obj_get sold (Item.sku item) with
    | Some q => obj_set sold (Item.sku item) (q + Item.quantity item)
    | None => sold
    end in
  {| Stats.id := Stats.id seller;
     Stats.name := Stats.name seller;
     Stats.revenue := seller_revenue;
     Stats.profit := seller_profit;
     Stats.sales_count := Stats.sales_count seller;
     Stats.products_sold := sold |}.

Definition count_sale (seller : Stats.t num) : Stats.t num :=
  {| Stats.id := Stats.id seller;
     Stats.name := Stats.name seller;
     Stats.revenue := Stats.revenue seller;
     Stats.profit := Stats.profit seller;
     Stats.sales_count := Stats.sales_count seller + 1;
     Stats.products_sold := Stats.products_sold seller |}.

(** What one record does to the statistics object of its seller. *)
Definition sell calculateRevenue productIndex
    (record : Purchase.t num) (seller : Stats.t num) : Stats.t num :=
  foldl (process_item calculateRevenue productIndex) (count_sale seller)
        (Purchase.items record).

(** The body of [data.purchase_records.forEach].
    [sellerIndex[record.seller_id]] is read among the own properties, which is
    what the program reads when the identifier is no member name of
    [Object.prototype]. *)
Definition process_record calculateRevenue productIndex
    (sellerIndex : gmap string nat)
    (sellerStats : list (Stats.t num)) (record : Purchase.t num)
  : list (Stats.t num) :=
  match sellerIndex !! Purchase.seller_id record with
  | None => sellerStats
  | Some ref => alter (sell calculateRevenue productIndex record) ref sellerStats
  end.

Definition accumulate calculateRevenue
    (sellers : list Seller.t) (products : list (Product.t num))
    (purchase_records : list (Purchase.t num)) : list (Stats.t num) :=
  let sellerStats := init_stats <$> sellers in
  let sellerIndex := index_sellers 0 sellerStats ∅ in
  let productIndex := index_products products in
  foldl (process_record calculateRevenue productIndex sellerIndex)
        sellerStats purchase_records.

(** *** Step 2: ranking by profit *)

Definition profit_after (a b : Stats.t num) : bool :=
  num_gt0 (Stats.profit b - Stats.profit a).

Definition rank (sellerStats : list (Stats.t num)) : list (Stats.t num) :=
  js_sort profit_after sellerStats.

(** *** Step 3: bonus and top products *)

Definition quantity_after (a b : Top.t num) : bool :=
  num_gt0 (Top.quantity b - Top.quantity a).

Definition top_products_of (products_sold : list (string * num)) : list (Top.t num) :=
  take 10
    (js_sort quantity_after
       ((λ '(sku, quantity), {| Top.sku := sku; Top.quantity := quantity |})
          <$> Object_entries products_sold)).

Definition assign (calculateBonus : Z → Z → Stats.t num → num)
    (sellerStats : list (Stats.t num)) : list (Ranked.t num) :=
  let totalSellers := Z.of_nat (length sellerStats) in
  imap (λ index seller,
          {| Ranked.stats := seller;
             Ranked.bonus := calculateBonus (Z.of_nat index) totalSellers seller;
             Ranked.top_products := top_products_of (Stats.products_sold seller) |})
       sellerStats.

(** *** Step 4: the report *)

Definition project (seller : Ranked.t num) : Entry.t num :=
  {| Entry.seller_id := Stats.id (Ranked.stats seller);
     Entry.name := Stats.name (Ranked.stats seller);
     Entry.revenue := toFixed2 (Stats.revenue (Ranked.stats seller));
     Entry.profit := toFixed2 (Stats.profit (Ranked.stats seller));
     Entry.sales_count := Stats.sales_count (Ranked.stats seller);
     Entry.top_products := Ranked.top_products seller;
     Entry.bonus := toFixed2 (Ranked.bonus seller) |}.

Definition report calculateRevenue calculateBonus
    (sellers : list Seller.t) (products : list (Product.t num))
    (purchase_records : list (Purchase.t num)) : list (Entry.t num) :=
  project
    <$> assign calculateBonus
          (rank (accumulate calculateRevenue sellers products purchase_records)).

Definition analyzeSalesData (data : data_arg num) (options : options_arg num)
  : outcome (list (Entry.t num)) :=
  if invalid_data data then Throw InvalidInputData
  else
    match options with
    | OptionsFalsy | OptionsNotObject => Throw OptionsNotAnObject
    | OptionsObject options =>
        match Options.calculateRevenue options, Options.calculateBonus options with
        | PropFalsy, _ | _, PropFalsy => Throw OptionsMissingFunctions
        | PropFunction calculateRevenue, PropFunction calculateBonus =>
            Return (report calculateRevenue calculateBonus
                      (elements (get_sellers data))
                      (elements (get_products data))
                      (elements (get_purchase_records data)))
        | _, _ => Throw OptionsNotFunctions
        end
    end.

End Program.

(** ** The numbers of the program: IEEE-754 binary64 *)

(** [+x.toFixed(2)].  [Number.prototype.toFixed] takes the integer [n] for
    which [n / 100 - |x|] is closest to zero (the larger one on a tie), taken
    on the exact value [m * 2^e] of the double, and prints it with the sign of
    [x]; unary plus reads the decimal back as the nearest double.  From 1e21
    on, and for NaN and the infinities, [toFixed] prints the number itself. *)
Definition float_toFixed2 (x : float) : float :=
  match Prim2SF x with
  | S754_finite s m e =>
      let n :=
        if (0 <=? e)%Z then (Z.pos m * 2 ^ e * 100)%Z
        else ((Z.pos m * 100 * 2 + 2 ^ (- e)) / 2 ^ (- e + 1))%Z in
      if (10 ^ 21 * 100 <=? n)%Z then x
      else
        match n with
        | Z.pos n => SF2Prim (SFdiv prec emax (S754_finite s n 0) (S754_finite false 100 0))
        | _ => if s then (-0)%float else 0%float
        end
  | S754_zero _ => 0%float
  | S754_infinity _ | S754_nan => x
  end.

#[export] Instance float_number : JsNumber float := {|
  lit_0 := 0%float;
  lit_1 := 1%float;
  lit_100 := 100%float;
  lit_0_15 := 0.15%float;
  lit_0_10 := 0.10%float;
  lit_0_05 := 0.05%float;
  num_add := PrimFloat.add;
  num_sub := PrimFloat.sub;
  num_mul := PrimFloat.mul;
  num_div := PrimFloat.div;
  num_gt0 := λ v, PrimFloat.ltb 0%float v;
  num_truthy := λ v, negb (PrimFloat.eqb v 0%float || PrimFloat.is_nan v);
  num_le := PrimFloat.leb;
  toFixed2 := float_toFixed2
|}.

(** ** Binary64 through its specification

    [SpecFloat] specifies a double as a zero, an infinity, NaN or a finite
    number [(-1)^s * m * 2^e].  The notions below serve the proofs about
    the comparison, the subtraction and the addition of doubles. *)





(** ** Notions used in the statements *)



(** The keys of a list in the order of their first occurrence. *)
Definition first_seen (keys : list string) : list string :=
  foldl (λ seen k, if decide (k ∈ seen) then seen else seen ++ [k]) [] keys.


(** The position, counted from [i], of the last seller whose identifier is
    [id]. *)
Fixpoint last_seller_from (i : nat) (sellers : list Seller.t) (id : string) : option nat :=
  match sellers with
  | [] => None
  | seller :: rest =>
      match last_seller_from (S i) rest id with
      | Some j => Some j
      | None => if decide (Seller.id seller = id) then Some i else None
      end
  end.

Section Notions.
Context {num : Type} `{JsNumber num}.
Local Open Scope js_scope.

(** What two properties need of the rounding and of the subtraction; binary64
    has both ([float_round_zero], [float_sub_zero]). *)
Definition round_zero : Prop := toFixed2 lit_0 = lit_0.
Definition sub_zero : Prop := ∀ a : num, a - lit_0 = a.



(** The records attributed to the seller at position [j], and their items. *)
Definition attributed_records (sellers : list Seller.t)
    (purchase_records : list (Purchase.t num)) (j : nat) : list (Purchase.t num) :=
  filter (λ record, last_seller_from 0 sellers (Purchase.seller_id record) = Some j)
         purchase_records.

Definition attributed_items (sellers : list Seller.t)
    (purchase_records : list (Purchase.t num)) (j : nat) : list (Item.t num) :=
  concat (Purchase.items <$> attributed_records sellers purchase_records j).

(** The cost of an item, and the sums the fold builds, added up from [start]
    in the order of the items. *)
Definition item_cost (productIndex : gmap string (Product.t num)) (item : Item.t num) : num :=
  match productIndex !! Item.sku item with
  | Some product => Product.purchase_price product * Item.quantity item
  | None => lit_0
  end.

Definition sum_revenue calculateRevenue (productIndex : gmap string (Product.t num))
    (start : num) (items : list (Item.t num)) : num :=
  foldl (λ acc item, acc + calculateRevenue item (productIndex !! Item.sku item))
        start items.

Definition sum_profit calculateRevenue (productIndex : gmap string (Product.t num))
    (start : num) (items : list (Item.t num)) : num :=
  foldl (λ acc item,
           acc + (calculateRevenue item (productIndex !! Item.sku item)
                  - item_cost productIndex item))
        start items.


(** The two statements that count an item in [products_sold]. *)
Definition count_item (sold : list (string * num)) (item : Item.t num)
  : list (string * num) :=
  let sold :=
    match obj_get sold (Item.sku item) with
    | Some q => if num_truthy q then sold else obj_set sold (Item.sku item) lit_0
    | None => obj_set sold (Item.sku item) lit_0
    end in
  match obj_get sold (Item.sku item) with
  | Some q => obj_set sold (Item.sku item) (q + Item.quantity item)
  | None => sold
  end.

(** The counter of [sku] read as a number: 0 when it is absent or falsy. *)
Definition counted (sold : list (string * num)) (sku : string) : num :=
  match obj_get sold sku with
  | Some q => if num_truthy q then q else lit_0
  | None => lit_0
  end.

(** The statistics of the seller at position [j], as sums over the items
    attributed to it. *)
Definition totals calculateRevenue (sellers : list Seller.t)
    (products : list (Product.t num)) (purchase_records : list (Purchase.t num))
    (j : nat) (seller : Seller.t) : Stats.t num :=
  let items := attributed_items sellers purchase_records j in
  {| Stats.id := Seller.id seller;
     Stats.name := Seller.first_name seller +:+ " " +:+ Seller.last_name seller;
     Stats.revenue := sum_revenue calculateRevenue (index_products products) lit_0 items;
     Stats.profit := sum_profit calculateRevenue (index_products products) lit_0 items;
     Stats.sales_count := length (attributed_records sellers purchase_records j);
     Stats.products_sold := foldl count_item [] items |}.

(** The entry of a seller nothing was sold by. *)
Definition idle_entry (seller : Seller.t) (bonus : num) : Entry.t num :=
  {| Entry.seller_id := Seller.id seller;
     Entry.name := Seller.first_name seller +:+ " " +:+ Seller.last_name seller;
     Entry.revenue := lit_0;
     Entry.profit := lit_0;
     Entry.sales_count := 0;
     Entry.top_products := [];
     Entry.bonus := bonus |}.

(** The entry at rank [r] of a seller with statistics [stats]. *)
Definition entry_of (calculateBonus : Z → Z → Stats.t num → num) (total r : nat)
    (stats : Stats.t num) : Entry.t num :=
  {| Entry.seller_id := Stats.id stats;
     Entry.name := Stats.name stats;
     Entry.revenue := toFixed2 (Stats.revenue stats);
     Entry.profit := toFixed2 (Stats.profit stats);
     Entry.sales_count := Stats.sales_count stats;
     Entry.top_products := top_products_of (Stats.products_sold stats);
     Entry.bonus := toFixed2 (calculateBonus (Z.of_nat r) (Z.of_nat total) stats) |}.




(** Inputs that pass the validation. *)
Definition bundle (sellers : list Seller.t) (products : list (Product.t num))
    (purchase_records : list (Purchase.t num)) (customers : list string) : data_arg num :=
  DataObject {| Data.sellers := IsArray sellers;
                Data.products := IsArray products;
                Data.purchase_records := IsArray purchase_records;
                Data.customers := IsArray customers |}.

Definition policies (calculateRevenue : Item.t num → option (Product.t num) → num)
    (calculateBonus : Z → Z → Stats.t num → num) : options_arg num :=
  OptionsObject {| Options.calculateRevenue := PropFunction calculateRevenue;
                   Options.calculateBonus := PropFunction calculateBonus |}.

(** The conditions on the two arguments, in the words of the specification
    ([customers] optional) and as the program tests them. *)
Definition nonempty_array {A : Type} (f : js_field A) : Prop :=
  ∃ l, f = IsArray l ∧ l ≠ [].

Definition some_array {A : Type} (f : js_field A) : Prop := ∃ l, f = IsArray l.

Definition required_collections (data : data_arg num) : Prop :=
  ∃ d, data = DataObject d
       ∧ nonempty_array (Data.sellers d)
       ∧ nonempty_array (Data.products d)
       ∧ nonempty_array (Data.purchase_records d).

Definition customers_array (data : data_arg num) : Prop :=
  ∃ d, data = DataObject d ∧ some_array (Data.customers d).

Definition both_policies (options : options_arg num) : Prop :=
  ∃ o calculateRevenue calculateBonus,
    options = OptionsObject o
    ∧ Options.calculateRevenue o = PropFunction calculateRevenue
    ∧ Options.calculateBonus o = PropFunction calculateBonus.

Definition throws {A : Type} (o : outcome A) : Prop := ∃ e, o = Throw e.

End Notions.

(** ** Sample inputs *)

Section Samples.
Context {num : Type} `{JsNumber num}.
Local Open Scope js_scope.

Definition default_policies : options_arg num :=
  policies calculateSimpleRevenue calculateBonusByProfit.

Definition anna : Seller.t :=
  {| Seller.id := "seller_1"; Seller.first_name := "Anna"; Seller.last_name := "Lee" |}.
Definition boris : Seller.t :=
  {| Seller.id := "seller_2"; Seller.first_name := "Boris"; Seller.last_name := "Kim" |}.
(** A second seller under the identifier of [anna]. *)
Definition clara : Seller.t :=
  {| Seller.id := "seller_1"; Seller.first_name := "Clara"; Seller.last_name := "Roy" |}.

Definition pen : Product.t num :=
  {| Product.sku := "SKU_001"; Product.purchase_price := lit_1 |}.

Definition sold (sku : string) : Item.t num :=
  {| Item.sku := sku; Item.quantity := lit_1; Item.sale_price := lit_100;
     Item.discount := lit_0 |}.

Definition receipt (seller_id : string) (skus : list string) : Purchase.t num :=
  {| Purchase.seller_id := seller_id; Purchase.items := sold <$> skus |}.

(** Three sellers, the first and the last under one identifier; a record for
    that identifier and one for [boris]. *)
Definition roster : list Seller.t := [anna; boris; clara].

Definition receipts : list (Purchase.t num) :=
  [receipt "seller_1" ["SKU_001"; "SKU_404"]; receipt "seller_2" ["SKU_001"]].

(** A record for an identifier of no seller. *)
Definition stray : Purchase.t num := receipt "seller_9" ["SKU_001"].


(** The three required collections, and no [customers]. *)
Definition no_customers : data_arg num :=
  DataObject {| Data.sellers := IsArray [anna];
                Data.products := IsArray [pen];
                Data.purchase_records := IsArray [receipt "seller_1" ["SKU_001"]];
                Data.customers := Absent |}.

End Samples.

(** One seller, one record, one item: price 100, quantity 2, discount 10,
    purchase price 40. *)
Definition single_sale (seller : Seller.t) (sku : string)
    (others : list (Product.t float)) (customers : list string) : data_arg float :=
  bundle [seller]
    (others ++ [ {| Product.sku := sku; Product.purchase_price := 40%float |} ])
    [ {| Purchase.seller_id := Seller.id seller;
         Purchase.items := [ {| Item.sku := sku; Item.quantity := 2%float;
                                Item.sale_price := 100%float;
                                Item.discount := 10%float |} ] |} ]
    customers.

(** A statistics object with a profit of 100. *)
Definition profit_100 : Stats.t float :=
  {| Stats.id := "seller_2"; Stats.name := "Boris Kim"; Stats.revenue := 250%float;
     Stats.profit := 100%float; Stats.sales_count := 3; Stats.products_sold := [] |}.

(** ** Further notions *)

Section Further.
Context {num : Type} `{JsNumber num}.
Local Open Scope js_scope.

(** The record names the identifier of some seller. *)
Definition known_seller (sellers : list Seller.t) (record : Purchase.t num) : Prop :=
  Purchase.seller_id record ∈ Seller.id <$> sellers.

#[global] Instance known_seller_dec (sellers : list Seller.t) (record : Purchase.t num)
  : Decision (known_seller sellers record) :=
  decide (Purchase.seller_id record ∈ Seller.id <$> sellers).


(** The names of the members of [Object.prototype], which every object
    created by an object literal inherits. *)
Definition Object_prototype : list string :=
  [ "constructor"; "__defineGetter__"; "__defineSetter__"; "hasOwnProperty";
    "__lookupGetter__"; "__lookupSetter__"; "isPrototypeOf";
    "propertyIsEnumerable"; "toString"; "valueOf"; "__proto__";
    "toLocaleString" ].

(** A key that names no member of [Object.prototype]: it is found in an
    object exactly when it is an own property, and creating it creates an own
    property. *)
Definition ordinary (k : string) : Prop := k ∉ Object_prototype.

(** Every key of the run is ordinary: the identifiers of the sellers and of
    the records, the SKUs of the products and of the items. *)
Definition ordinary_keys (sellers : list Seller.t) (products : list (Product.t num))
    (purchase_records : list (Purchase.t num)) : Prop :=
  Forall ordinary (Seller.id <$> sellers)
  ∧ Forall ordinary (Product.sku <$> products)
  ∧ Forall (λ record,
              ordinary (Purchase.seller_id record)
              ∧ Forall ordinary (Item.sku <$> Purchase.items record))
           purchase_records.





End Further.

(** ** The policies of the other variants

    [src/unnamed/part_000] holds other variants of the program.  The
    policies of its second variant compute without rounding, as those of
    [src/main.js] do: the revenue applies the discount to the price before
    the quantity, and the bonus has a guard for at most one seller. *)

Module Unnamed.
Section Policies.
Context {num : Type} `{JsNumber num}.
Local Open Scope js_scope.

Definition calculateSimpleRevenue
    (purchase : Item.t num) (product : option (Product.t num)) : num :=
  let priceWithDiscount :=
    Item.sale_price purchase * (lit_1 - Item.discount purchase / lit_100) in
  priceWithDiscount * Item.quantity purchase.

Definition calculateBonusByProfit (index total : Z) (seller : Stats.t num) : num :=
  let profit := Stats.profit seller in
  if (total <=? 1)%Z then profit * lit_0_15
  else if (index =? 0)%Z then profit * lit_0_15
  else if (index =? 1)%Z || (index =? 2)%Z then profit * lit_0_10
  else if (index =? total - 1)%Z then lit_0
  else profit * lit_0_05.

End Policies.
End Unnamed.

(** ** Further samples *)

(** A product under another SKU than [pen]. *)
Definition ink : Product.t float :=
  {| Product.sku := "SKU_002"; Product.purchase_price := 2%float |}.

(** A second product under the SKU of [pen], at a purchase price of 100. *)
Definition refill : Product.t float :=
  {| Product.sku := "SKU_001"; Product.purchase_price := 100%float |}.

(** A record of [anna] with one item at the given price. *)
Definition priced (price : float) : Purchase.t float :=
  {| Purchase.seller_id := "seller_1";
     Purchase.items := [ {| Item.sku := "SKU_001"; Item.quantity := 1%float;
                            Item.sale_price := price; Item.discount := 0%float |} ] |}.

(** Three units at a price of 0.1 with a discount of 10, on binary64. *)
Definition dime : Item.t float :=
  {| Item.sku := "SKU_001"; Item.quantity := 3%float; Item.sale_price := 0.1%float;
     Item.discount := 10%float |}.


(** ** The runtime model on concrete values *)

(** [(1.005).toFixed(2)] is ["1.00"], the double below 1.005 being rounded;
    [(0.125).toFixed(2)] is ["0.13"], a tie; [(-2.345).toFixed(2)] is
    ["-2.35"]; [(0).toFixed(2)] is ["0.00"]. *)
Example toFixed2_on_doubles :
  float_toFixed2 1.005 = 1%float
  ∧ float_toFixed2 0.125 = 0.13%float
  ∧ float_toFixed2 (-2.345) = (-2.35)%float
  ∧ float_toFixed2 1234.5678 = 1234.57%float
  ∧ float_toFixed2 0 = 0%float
  ∧ float_toFixed2 nan = nan
  ∧ float_toFixed2 1e21 = 1e21%float.
Proof. split_and!; by vm_compute. Qed.

Example array_index_of_keys :
  array_index "0" = Some 0%N
  ∧ array_index "1001" = Some 1001%N
  ∧ array_index "4294967294" = Some 4294967294%N
  ∧ array_index "4294967295" = None
  ∧ array_index "007" = None
  ∧ array_index "" = None
  ∧ array_index "SKU_001" = None.
Proof. split_and!; by vm_compute. Qed.

(** [Object.entries({b: 1, 2: 2, a: 3, 1: 4, 10: 5})], the properties being
    created in this order. *)
Example Object_entries_order :
  Object_entries [("b", 1); ("2", 2); ("a", 3); ("1", 4); ("10", 5)]
  = [("1", 4); ("2", 2); ("10", 5); ("b", 1); ("a", 3)].
Proof. by vm_compute. Qed.

(** [[[1,1],[3,2],[2,3],[3,4],[1,5]].sort((a, b) => b[0] - a[0])]. *)
Example js_sort_descending_stable :
  js_sort (λ a b : nat * nat, a.1 <? b.1)
          [(1, 1); (3, 2); (2, 3); (3, 4); (1, 5)]
  = [(3, 2); (3, 4); (2, 3); (1, 1); (1, 5)].
Proof. by vm_compute. Qed.

Example revenue_on_doubles :
  calculateSimpleRevenue
    {| Item.sku := "SKU_001"; Item.quantity := 2%float; Item.sale_price := 100%float;
       Item.discount := 10%float |} None
  = 180%float.
Proof. by vm_compute. Qed.

(** The report of the sample input on binary64: [clara] owns the records of
    ["seller_1"], [anna] has none. *)
Example sample_report_on_doubles :
  analyzeSalesData (num := float) (bundle roster [pen] receipts []) default_policies
  = Return
      [ {| Entry.seller_id := "seller_1"; Entry.name := "Clara Roy";
           Entry.revenue := 200%float; Entry.profit := 199%float;
           Entry.sales_count := 1;
           Entry.top_products :=
             [ {| Top.sku := "SKU_001"; Top.quantity := 1%float |};
               {| Top.sku := "SKU_404"; Top.quantity := 1%float |} ];
           Entry.bonus := 29.85%float |};
        {| Entry.seller_id := "seller_2"; Entry.name := "Boris Kim";
           Entry.revenue := 100%float; Entry.profit := 99%float;
           Entry.sales_count := 1;
           Entry.top_products := [ {| Top.sku := "SKU_001"; Top.quantity := 1%float |} ];
           Entry.bonus := 9.9%float |};
        {| Entry.seller_id := "seller_1"; Entry.name := "Anna Lee";
           Entry.revenue := 0%float; Entry.profit := 0%float;
           Entry.sales_count := 0;
           Entry.top_products := [];
           Entry.bonus := 0%float |} ].
Proof. by vm_compute. Qed.

(** ** Properties of the runtime model *)

Section Sort.
Context {A : Type} (after : A → A → bool).

Lemma js_insert_perm x l : js_insert after x l ≡ₚ x :: l.
Proof.
  induction l as [|y l IH]; simpl; [done|].
  destruct (after x y); [|done].
  rewrite IH. apply Permutation_swap.
Qed.

Lemma js_sort_perm l : js_sort after l ≡ₚ l.
Proof.
  induction l as [|x l IH]; simpl; [done|].
  by rewrite js_insert_perm, IH.
Qed.

Lemma js_sort_length l : length (js_sort after l) = length l.
Proof. by rewrite js_sort_perm. Qed.





Section Consistent.
Hypothesis after_asym : ∀ a b, after a b = true → after b a = false.



End Consistent.
End Sort.

Section Precedes.
Context {A : Type} (after : A → A → bool).







End Precedes.


(** ** The seller index *)

Section SellerIndex.
Context {num : Type} `{JsNumber num}.

Lemma index_sellers_lookup i sellers (result : gmap string nat) id :
  index_sellers i (init_stats (num := num) <$> sellers) result !! id =
  match last_seller_from i sellers id with
  | Some j => Some j
  | None => result !! id
  end.
Proof.
  revert i result. induction sellers as [|seller rest IH]; intros i result; simpl.
  - done.
  - rewrite IH. destruct (last_seller_from (S i) rest id); [done|].
    destruct (decide (Seller.id seller = id)) as [->|Hne].
    + by rewrite lookup_insert_eq.
    + by rewrite lookup_insert_ne.
Qed.

Lemma sellerIndex_lookup sellers id :
  index_sellers 0 (init_stats (num := num) <$> sellers) ∅ !! id
  = last_seller_from 0 sellers id.
Proof.
  rewrite index_sellers_lookup. by destruct (last_seller_from 0 sellers id).
Qed.

End SellerIndex.

Lemma last_seller_from_None i sellers id :
  last_seller_from i sellers id = None ↔ ∀ seller, seller ∈ sellers → Seller.id seller ≠ id.
Proof.
  revert i. induction sellers as [|seller rest IH]; intros i; simpl.
  - split; [|done]. intros _ s Hs. by apply elem_of_nil in Hs.
  - destruct (last_seller_from (S i) rest id) as [j|] eqn:Hrest.
    + split; [done|]. intros Hall.
      assert (last_seller_from (S i) rest id = None) as Hc; [|congruence].
      apply IH. intros s Hs. apply Hall. by right.
    + destruct (decide (Seller.id seller = id)) as [Hid|Hid].
      * split; [done|]. intros Hall. destruct (Hall seller); [left|done].
      * split; [|done]. intros _ s [->|Hs]%elem_of_cons; [done|].
        by apply (proj1 (IH (S i))).
Qed.


(** ** Step 1: what the records do to each statistics object *)

Section Accumulate.
Context {num : Type} `{JsNumber num}.
Local Open Scope js_scope.
Implicit Types (calculateRevenue : Item.t num → option (Product.t num) → num)
  (productIndex : gmap string (Product.t num)) (sellerIndex : gmap string nat)
  (sellerStats : list (Stats.t num)) (seller : Stats.t num)
  (purchase_records : list (Purchase.t num)) (items : list (Item.t num)).

Lemma process_record_lookup calculateRevenue productIndex sellerIndex sellerStats record j :
  process_record calculateRevenue productIndex sellerIndex sellerStats record !! j =
  (if decide (sellerIndex !! Purchase.seller_id record = Some j)
   then sell calculateRevenue productIndex record else id) <$> sellerStats !! j.
Proof.
  unfold process_record.
  destruct (sellerIndex !! Purchase.seller_id record) as [ref|] eqn:Href.
  - destruct (decide (ref = j)) as [->|Hne].
    + rewrite decide_True by done. apply list_lookup_alter_eq.
    + rewrite decide_False by congruence.
      rewrite list_lookup_alter_ne by done. by destruct (sellerStats !! j).
  - rewrite decide_False by done. by destruct (sellerStats !! j).
Qed.

Lemma process_record_length calculateRevenue productIndex sellerIndex sellerStats record :
  length (process_record calculateRevenue productIndex sellerIndex sellerStats record)
  = length sellerStats.
Proof.
  unfold process_record. destruct (sellerIndex !! _); [apply length_alter|done].
Qed.

Lemma process_records_lookup calculateRevenue productIndex sellerIndex
    purchase_records sellerStats j :
  foldl (process_record calculateRevenue productIndex sellerIndex)
        sellerStats purchase_records !! j =
  (λ seller,
     foldl (λ seller record, sell calculateRevenue productIndex record seller) seller
       (filter (λ record, sellerIndex !! Purchase.seller_id record = Some j)
               purchase_records))
  <$> sellerStats !! j.
Proof.
  revert sellerStats.
  induction purchase_records as [|record rest IH]; intros sellerStats; simpl.
  - by destruct (sellerStats !! j).
  - rewrite IH, process_record_lookup, filter_cons.
    destruct (decide (sellerIndex !! Purchase.seller_id record = Some j));
      by destruct (sellerStats !! j).
Qed.

Lemma process_records_length calculateRevenue productIndex sellerIndex
    purchase_records sellerStats :
  length (foldl (process_record calculateRevenue productIndex sellerIndex)
                sellerStats purchase_records) = length sellerStats.
Proof.
  revert sellerStats.
  induction purchase_records as [|record rest IH]; intros sellerStats; simpl; [done|].
  by rewrite IH, process_record_length.
Qed.

Lemma accumulate_length calculateRevenue sellers products purchase_records :
  length (accumulate calculateRevenue sellers products purchase_records) = length sellers.
Proof.
  unfold accumulate. by rewrite process_records_length, length_fmap.
Qed.

Lemma accumulate_lookup calculateRevenue sellers products purchase_records j :
  accumulate calculateRevenue sellers products purchase_records !! j =
  (λ s : Seller.t,
     foldl (λ stats record, sell calculateRevenue (index_products products) record stats)
       (init_stats s) (attributed_records sellers purchase_records j))
  <$> sellers !! j.
Proof.
  unfold accumulate. rewrite process_records_lookup, list_lookup_fmap.
  destruct (sellers !! j) as [s|]; simpl; [|done].
  do 2 f_equal. unfold attributed_records.
  apply list_filter_iff. intros record. by rewrite sellerIndex_lookup.
Qed.

Lemma process_items_eq calculateRevenue productIndex items seller :
  foldl (process_item calculateRevenue productIndex) seller items =
  {| Stats.id := Stats.id seller;
     Stats.name := Stats.name seller;
     Stats.revenue := sum_revenue calculateRevenue productIndex (Stats.revenue seller) items;
     Stats.profit := sum_profit calculateRevenue productIndex (Stats.profit seller) items;
     Stats.sales_count := Stats.sales_count seller;
     Stats.products_sold := foldl count_item (Stats.products_sold seller) items |}.
Proof.
  revert seller. induction items as [|item items IH]; intros seller; simpl.
  - by destruct seller.
  - by rewrite IH.
Qed.

Lemma sell_records_eq calculateRevenue productIndex purchase_records seller :
  foldl (λ stats record, sell calculateRevenue productIndex record stats)
        seller purchase_records =
  let items := concat (Purchase.items <$> purchase_records) in
  {| Stats.id := Stats.id seller;
     Stats.name := Stats.name seller;
     Stats.revenue := sum_revenue calculateRevenue productIndex (Stats.revenue seller) items;
     Stats.profit := sum_profit calculateRevenue productIndex (Stats.profit seller) items;
     Stats.sales_count := Stats.sales_count seller + length purchase_records;
     Stats.products_sold := foldl count_item (Stats.products_sold seller) items |}.
Proof.
  revert seller.
  induction purchase_records as [|record rest IH]; intros seller; csimpl.
  - destruct seller; simpl. by rewrite Nat.add_0_r.
  - rewrite IH. unfold sell. rewrite process_items_eq. simpl.
    unfold sum_revenue, sum_profit. rewrite !foldl_app.
    f_equal. lia.
Qed.

(** Every statistics object holds the sums over the items attributed to it. *)
Lemma accumulate_totals calculateRevenue sellers products purchase_records j :
  accumulate calculateRevenue sellers products purchase_records !! j =
  totals calculateRevenue sellers products purchase_records j <$> sellers !! j.
Proof.
  rewrite accumulate_lookup. destruct (sellers !! j) as [s|]; simpl; [|done].
  by rewrite sell_records_eq.
Qed.

End Accumulate.

(** ** Objects as ordered property lists *)

Section Objects.
Context {V : Type}.
Implicit Types (o : list (string * V)) (k : string) (v : V).

Lemma obj_get_set o k v k' :
  obj_get (obj_set o k v) k' = if decide (k = k') then Some v else obj_get o k'.
Proof.
  induction o as [|[k0 v0] o IH]; simpl.
  - by destruct (decide (k = k')).
  - destruct (decide (k0 = k)) as [->|Hk0]; simpl.
    + by destruct (decide (k = k')).
    + rewrite IH. destruct (decide (k0 = k')) as [->|]; [|done].
      by rewrite decide_False.
Qed.

Lemma obj_get_None o k : obj_get o k = None ↔ k ∉ o.*1.
Proof.
  induction o as [|[k0 v0] o IH]; csimpl.
  - split; [|done]. intros _. apply not_elem_of_nil.
  - rewrite not_elem_of_cons. destruct (decide (k0 = k)) as [->|Hne].
    + split; [done|]. by intros [? _].
    + rewrite IH. split; [|by intros [_ ?]]. intros Hk. split; [congruence|done].
Qed.

Lemma obj_set_keys o k v :
  (obj_set o k v).*1 = if decide (k ∈ o.*1) then o.*1 else o.*1 ++ [k].
Proof.
  induction o as [|[k0 v0] o IH]; csimpl.
  - destruct (decide (k ∈ [])) as [Hin|Hin]; [|done]. by apply elem_of_nil in Hin.
  - destruct (decide (k0 = k)) as [->|Hk0]; csimpl.
    + destruct (decide (k ∈ k :: o.*1)) as [Hin|Hin]; [done|]. destruct Hin. left.
    + rewrite IH.
      destruct (decide (k ∈ o.*1)) as [Hin|Hin],
               (decide (k ∈ k0 :: o.*1)) as [Hin'|Hin']; try done.
      * destruct Hin'. by right.
      * apply elem_of_cons in Hin' as [->|?]; done.
Qed.




End Objects.

Lemma first_seen_step_NoDup (seen keys : list string) :
  NoDup seen →
  NoDup (foldl (λ seen k, if decide (k ∈ seen) then seen else seen ++ [k]) seen keys).
Proof.
  revert seen. induction keys as [|k keys IH]; intros seen Hnd; simpl; [done|].
  apply IH. destruct (decide (k ∈ seen)); [done|].
  apply NoDup_app. split_and!; [done| |apply NoDup_singleton].
  intros x Hx ->%list_elem_of_singleton. done.
Qed.



(** ** Binary64: the sign of a difference and of a sum

    [SpecFloat] rounds the exact result [D * 2^e] of an addition or a
    subtraction of two finite doubles; [e] is not below the least exponent,
    so the rounding never reaches zero and keeps the sign of [D].  Two
    finite doubles compare as their values in units of [2^e] do. *)

Section SpecFloats.
Local Open Scope Z_scope.





















End SpecFloats.

(** ** Binary64: the laws the ranking and the counters rest on

    They hold for every double: NaN, the infinities and the two zeros
    included, except where a hypothesis asks for numbers. *)

Section Floats.
Local Open Scope float_scope.
Implicit Types a b q : float.











End Floats.

(** ** The sold-quantity counters *)

Section Counters.
Context {num : Type} `{JsNumber num}.
Local Open Scope js_scope.
Implicit Types (sold : list (string * num)) (item : Item.t num)
  (items : list (Item.t num)) (k : string).

Lemma count_item_keys sold item :
  (count_item sold item).*1 =
  if decide (Item.sku item ∈ sold.*1) then sold.*1 else sold.*1 ++ [Item.sku item].
Proof.
  unfold count_item.
  destruct (obj_get sold (Item.sku item)) as [q|] eqn:Hget.
  - assert (Item.sku item ∈ sold.*1) as Hin.
    { destruct (decide (Item.sku item ∈ sold.*1)) as [|Hn]; [done|].
      apply obj_get_None in Hn. congruence. }
    destruct (num_truthy q).
    + rewrite Hget, obj_set_keys. by rewrite !decide_True.
    + rewrite obj_get_set, decide_True by done.
      rewrite !obj_set_keys. rewrite !decide_True; try done.
      by rewrite decide_True.
  - assert (Item.sku item ∉ sold.*1) as Hin by by apply obj_get_None.
    rewrite obj_get_set, decide_True by done.
    rewrite !obj_set_keys. rewrite (decide_False (P := Item.sku item ∈ sold.*1)) by done.
    rewrite decide_True; [done|]. apply elem_of_app. right. left.
Qed.

Lemma count_items_keys items sold :
  (foldl count_item sold items).*1 =
  foldl (λ seen k, if decide (k ∈ seen) then seen else seen ++ [k])
        sold.*1 (Item.sku <$> items).
Proof.
  revert sold. induction items as [|item items IH]; intros sold; csimpl; [done|].
  by rewrite IH, count_item_keys.
Qed.

End Counters.

(** On binary64, with quantities that are not below 0, no counter is ever
    reset: a counter is [+0] or above zero, and it is falsy only when it is
    [+0]. *)

Section QuantityCounters.
Local Open Scope js_scope.
Implicit Types (sold : list (string * float)) (item : Item.t float)
  (items : list (Item.t float)) (k : string).







End QuantityCounters.

(** ** Enumeration order *)

Section Enumeration.
Context {V : Type} (g : string → V).





End Enumeration.



(** ** Steps 2 to 4: from the statistics to the report *)

Section Report.
Context {num : Type} `{JsNumber num}.
Local Open Scope js_scope.
Implicit Types (calculateRevenue : Item.t num → option (Product.t num) → num)
  (calculateBonus : Z → Z → Stats.t num → num)
  (sellers : list Seller.t) (products : list (Product.t num))
  (purchase_records : list (Purchase.t num)) (customers : list string).

Lemma analyze_bundle calculateRevenue calculateBonus
    sellers products purchase_records customers :
  sellers ≠ [] → products ≠ [] → purchase_records ≠ [] →
  analyzeSalesData (bundle sellers products purchase_records customers)
                   (policies calculateRevenue calculateBonus)
  = Return (report calculateRevenue calculateBonus sellers products purchase_records).
Proof.
  intros Hs Hp Hr. unfold analyzeSalesData, invalid_data. simpl.
  destruct sellers; [done|]. destruct products; [done|].
  by destruct purchase_records.
Qed.

Lemma rank_perm (sellerStats : list (Stats.t num)) : rank sellerStats ≡ₚ sellerStats.
Proof. apply js_sort_perm. Qed.

Lemma rank_length (sellerStats : list (Stats.t num)) :
  length (rank sellerStats) = length sellerStats.
Proof. apply js_sort_length. Qed.

Lemma report_lookup calculateRevenue calculateBonus sellers products purchase_records r :
  report calculateRevenue calculateBonus sellers products purchase_records !! r =
  entry_of calculateBonus (length sellers) r
    <$> rank (accumulate calculateRevenue sellers products purchase_records) !! r.
Proof.
  unfold report, assign.
  rewrite list_lookup_fmap, list_lookup_imap, rank_length, accumulate_length.
  by destruct (rank _ !! r).
Qed.


(** Every ranked statistics object is the one of some seller. *)
Lemma rank_accumulate_elem calculateRevenue sellers products purchase_records stats :
  stats ∈ rank (accumulate calculateRevenue sellers products purchase_records) →
  ∃ j seller, sellers !! j = Some seller
    ∧ stats = totals calculateRevenue sellers products purchase_records j seller.
Proof.
  rewrite rank_perm. intros [j Hj]%list_elem_of_lookup_1.
  rewrite accumulate_totals in Hj.
  destruct (sellers !! j) as [seller|] eqn:Hs; [|done].
  exists j, seller. split; [done|]. simpl in Hj. by simplify_eq.
Qed.


End Report.

(** The ranking and the top products on binary64. *)

Section FloatReport.
Local Open Scope js_scope.





End FloatReport.

(** ** The claims *)

Section Validation.
Context {num : Type} `{JsNumber num}.

Lemma invalid_data_false (data : data_arg num) :
  invalid_data data = false ↔ required_collections data ∧ customers_array data.
Proof.
  unfold invalid_data, required_collections, customers_array, nonempty_array, some_array.
  split.
  - destruct data as [| |[sellers products purchase_records customers]]; simpl; try done.
    destruct sellers as [| |[|s sellers]], products as [| |[|p products]],
      purchase_records as [| |[|r purchase_records]], customers as [| |customers];
      simpl; try done.
    intros _. split; eexists; (split; [done|]); eauto 10.
  - intros [(d & -> & (ls & Hs & Hls) & (lp & Hp & Hlp) & (lr & Hr & Hlr))
            (d' & [= <-] & (lc & Hc))].
    simpl. rewrite Hs, Hp, Hr, Hc. simpl.
    destruct ls; [done|]. destruct lp; [done|]. by destruct lr.
Qed.

(** C1, as amended: [analyzeSalesData] throws exactly when the data bundle is
    absent or not an object, when one of [sellers], [products],
    [purchase_records] is absent, not an array or empty, when [customers] is
    absent or not an array, or when the options bundle is absent, not an object
    or lacks a function [calculateRevenue] or [calculateBonus]; a fault of the
    data is reported before the options are looked at; on every other input
    the validation passes and the report is returned. *)
Theorem validation_outcome (data : data_arg num) (options : options_arg num) :
  (throws (analyzeSalesData data options)
   ↔ ¬ (required_collections data ∧ customers_array data ∧ both_policies options))
  ∧ (¬ (required_collections data ∧ customers_array data) →
     analyzeSalesData data options = Throw InvalidInputData)
  ∧ (required_collections data ∧ customers_array data ∧ both_policies options →
     ∃ sellers products purchase_records customers calculateRevenue calculateBonus,
       data = bundle sellers products purchase_records customers
       ∧ options = policies calculateRevenue calculateBonus
       ∧ analyzeSalesData data options
         = Return (report calculateRevenue calculateBonus
                          sellers products purchase_records)).
Proof.
  assert (required_collections data ∧ customers_array data ∧ both_policies options →
     ∃ sellers products purchase_records customers calculateRevenue calculateBonus,
       data = bundle sellers products purchase_records customers
       ∧ options = policies calculateRevenue calculateBonus
       ∧ analyzeSalesData data options
         = Return (report calculateRevenue calculateBonus
                          sellers products purchase_records)) as Hpass.
  { intros ((d & -> & (ls & Hs & Hls) & (lp & Hp & Hlp) & (lr & Hr & Hlr))
            & (d' & [= <-] & (lc & Hc)) & (o & cr & cb & -> & Hcr & Hcb)).
    exists ls, lp, lr, lc, cr, cb.
    destruct d as [sellers products purchase_records customers].
    destruct o as [calculateRevenue calculateBonus]. simpl in *. subst.
    split; [done|]. split; [done|]. by apply analyze_bundle. }
  split; [|split; [|done]].
  - split.
    + intros [e He] Hok.
      destruct (Hpass Hok) as (? & ? & ? & ? & ? & ? & _ & _ & Hret). congruence.
    + intros Hnot. unfold analyzeSalesData.
      destruct (invalid_data data) eqn:Hdata; [by eexists|].
      apply invalid_data_false in Hdata as [Hreq Hcust].
      destruct options as [| |[[| |cr] [| |cb]]]; try by eexists.
      destruct Hnot. split_and!; [done..|]. by eexists _, cr, cb.
  - intros Hnot. unfold analyzeSalesData.
    destruct (invalid_data data) eqn:Hdata; [done|].
    by apply invalid_data_false in Hdata.
Qed.

End Validation.

(** C1, as stated, fails: the three required collections are present and not
    empty and both policies are functions, yet without [customers] the call
    throws. *)
Lemma missing_customers_rejected :
  required_collections (num := float) no_customers
  ∧ both_policies (num := float) default_policies
  ∧ analyzeSalesData (num := float) no_customers default_policies
    = Throw InvalidInputData.
Proof.
  split_and!.
  - eexists. split; [done|]. split_and!; eexists; split; done.
  - by eexists _, _, _.
  - done.
Qed.

Section Bonus.
Context {num : Type} `{JsNumber num}.
Local Open Scope js_scope.

(** C2, as amended: under [calculateBonusByProfit] rank 0 receives
    0.15 × profit, which covers the single seller; ranks 1 and 2 receive
    0.10 × profit, also when one of them is the last rank; the last rank
    receives 0 when it is rank 3 or later; every other rank receives
    0.05 × profit. *)
Theorem bonus_by_rank (index total : Z) (seller : Stats.t num) :
  let bonus := calculateBonusByProfit index total seller in
  let profit := Stats.profit seller in
  (index = 0%Z → bonus = profit * lit_0_15)
  ∧ (index = 1%Z ∨ index = 2%Z → bonus = profit * lit_0_10)
  ∧ (index = (total - 1)%Z → (3 ≤ index)%Z → bonus = lit_0)
  ∧ (index ≠ 0%Z → index ≠ 1%Z → index ≠ 2%Z → index ≠ (total - 1)%Z →
     bonus = profit * lit_0_05)
  ∧ (total = 1%Z → index = (total - 1)%Z → bonus = profit * lit_0_15).
Proof.
  unfold calculateBonusByProfit. simpl. split_and!.
  - by intros ->.
  - by intros [-> | ->].
  - intros Hlast Hindex.
    destruct (Z.eqb_spec index 0), (Z.eqb_spec index 1), (Z.eqb_spec index 2);
      try lia.
    simpl. by rewrite (proj2 (Z.eqb_eq _ _) Hlast).
  - intros H0 H1 H2 Hlast.
    destruct (Z.eqb_spec index 0), (Z.eqb_spec index 1), (Z.eqb_spec index 2),
      (Z.eqb_spec index (total - 1)); done.
  - by intros -> ->.
Qed.

End Bonus.

Lemma bonus_by_rank_witness :
  calculateBonusByProfit 0 1 profit_100 = (100 * 0.15)%float
  ∧ calculateBonusByProfit 2 5 profit_100 = (100 * 0.10)%float
  ∧ calculateBonusByProfit 4 5 profit_100 = 0%float
  ∧ calculateBonusByProfit 3 5 profit_100 = (100 * 0.05)%float.
Proof.
  split_and!.
  - destruct (bonus_by_rank 0 1 profit_100) as (Hfirst & _). by apply Hfirst.
  - destruct (bonus_by_rank 2 5 profit_100) as (_ & Hnext & _). apply Hnext. by right.
  - destruct (bonus_by_rank 4 5 profit_100) as (_ & _ & Hlast & _).
    apply Hlast; [reflexivity|lia].
  - destruct (bonus_by_rank 3 5 profit_100) as (_ & _ & _ & Hother & _).
    apply Hother; lia.
Defined.

Lemma float_neq (a b : float) : Prim2SF a ≠ Prim2SF b → a ≠ b.
Proof. intros Hne ->. by apply Hne. Qed.

(** C2, as stated, fails: of two sellers the last one is at rank 1 and
    receives 0.10 × profit, which is not 0. *)
Lemma last_of_two_gets_bonus :
  (1 = 2 - 1)%Z
  ∧ calculateBonusByProfit 1 2 profit_100 = 10%float
  ∧ calculateBonusByProfit 1 2 profit_100 ≠ lit_0.
Proof.
  split_and!; [done|by vm_compute|].
  apply float_neq. by vm_compute.
Qed.

Lemma index_products_last {num : Type} (others : list (Product.t num)) product :
  index_products (others ++ [product]) !! Product.sku product = Some product.
Proof.
  unfold index_products. rewrite foldl_app. simpl. apply lookup_insert_eq.
Qed.

(** C8: on binary64, with [calculateSimpleRevenue] and [calculateBonusByProfit],
    one seller and one purchase record with one item of sale price 100,
    quantity 2 and discount 10, whose product has purchase price 40 (so the
    cost is 80), give one entry with revenue 180, profit 100, sales count 1
    and bonus 15. *)
Theorem single_sale_report seller sku others customers :
  item_cost
    (index_products
       (others ++ [ {| Product.sku := sku; Product.purchase_price := 40%float |} ]))
    {| Item.sku := sku; Item.quantity := 2%float; Item.sale_price := 100%float;
       Item.discount := 10%float |} = 80%float
  ∧ analyzeSalesData (single_sale seller sku others customers) default_policies =
    Return [ {| Entry.seller_id := Seller.id seller;
                Entry.name := Seller.first_name seller +:+ " " +:+ Seller.last_name seller;
                Entry.revenue := 180%float;
                Entry.profit := 100%float;
                Entry.sales_count := 1;
                Entry.top_products := [ {| Top.sku := sku; Top.quantity := 2%float |} ];
                Entry.bonus := 15%float |} ].
Proof.
  pose proof (index_products_last others
    {| Product.sku := sku; Product.purchase_price := 40%float |}) as Hp.
  simpl in Hp. split.
  { unfold item_cost. simpl. by rewrite Hp. }
  unfold single_sale, default_policies.
  rewrite analyze_bundle; [|done|by destruct others|done].
  f_equal. unfold report, accumulate. simpl.
  unfold process_record. simpl. rewrite lookup_insert_eq. simpl.
  unfold sell, process_item. simpl. rewrite Hp. simpl.
  rewrite !decide_True by done. simpl.
  assert (top_products_of [(sku, 2%float)]
          = [ {| Top.sku := sku; Top.quantity := 2%float |} ]) as ->.
  { unfold top_products_of, Object_entries. rewrite !filter_cons, !filter_nil. simpl.
    by destruct (is_array_index sku). }
  unfold project. simpl. do 2 f_equal; by vm_compute.
Qed.

Section Entries.
Context {num : Type} `{JsNumber num}.
Local Open Scope js_scope.
Implicit Types (calculateRevenue : Item.t num → option (Product.t num) → num)
  (calculateBonus : Z → Z → Stats.t num → num)
  (sellers : list Seller.t) (products : list (Product.t num))
  (purchase_records : list (Purchase.t num)) (customers : list string).







End Entries.

Section Records.
Context {num : Type} `{JsNumber num}.
Local Open Scope js_scope.
Implicit Types (calculateRevenue : Item.t num → option (Product.t num) → num)
  (calculateBonus : Z → Z → Stats.t num → num)
  (sellers : list Seller.t) (products : list (Product.t num))
  (purchase_records : list (Purchase.t num)) (customers : list string).


Lemma process_record_unknown calculateRevenue productIndex sellers
    (sellerStats : list (Stats.t num)) record :
  (∀ seller, seller ∈ sellers → Seller.id seller ≠ Purchase.seller_id record) →
  process_record calculateRevenue productIndex
    (index_sellers 0 (init_stats (num := num) <$> sellers) ∅) sellerStats record
  = sellerStats.
Proof.
  intros Hunknown. unfold process_record.
  by rewrite sellerIndex_lookup, (proj2 (last_seller_from_None 0 sellers _) Hunknown).
Qed.

(** C5, as amended: a purchase record whose [seller_id] is the identifier of
    no seller, the keys being ordinary, is skipped: it changes no statistics
    object (revenue, profit, sales count, sold quantities), and the report is
    the one computed from the other records; this is the outcome of the input
    without that record when other records remain. *)
Theorem unknown_seller_skipped calculateRevenue calculateBonus
    sellers products customers before record after :
  sellers ≠ [] → products ≠ [] →
  ordinary_keys sellers products (before ++ record :: after) →
  (∀ seller, seller ∈ sellers → Seller.id seller ≠ Purchase.seller_id record) →
  (∀ sellerStats,
     process_record calculateRevenue (index_products products)
       (index_sellers 0 (init_stats (num := num) <$> sellers) ∅) sellerStats record
     = sellerStats)
  ∧ accumulate calculateRevenue sellers products (before ++ record :: after)
    = accumulate calculateRevenue sellers products (before ++ after)
  ∧ analyzeSalesData (bundle sellers products (before ++ record :: after) customers)
                     (policies calculateRevenue calculateBonus)
    = Return (report calculateRevenue calculateBonus sellers products (before ++ after))
  ∧ (before ++ after ≠ [] →
     analyzeSalesData (bundle sellers products (before ++ record :: after) customers)
                      (policies calculateRevenue calculateBonus)
     = analyzeSalesData (bundle sellers products (before ++ after) customers)
                        (policies calculateRevenue calculateBonus)).
Proof.
  intros Hs Hp _ Hunknown.
  assert (accumulate calculateRevenue sellers products (before ++ record :: after)
          = accumulate calculateRevenue sellers products (before ++ after)) as Hacc.
  { unfold accumulate. rewrite !foldl_app. simpl.
    by rewrite process_record_unknown. }
  assert (analyzeSalesData (bundle sellers products (before ++ record :: after) customers)
                     (policies calculateRevenue calculateBonus)
    = Return (report calculateRevenue calculateBonus sellers products (before ++ after)))
    as Hreport.
  { rewrite analyze_bundle; [|done..|by destruct before].
    unfold report. by rewrite Hacc. }
  split; [intros sellerStats; by apply process_record_unknown|].
  split; [done|]. split; [done|].
  intros Hrest. by rewrite Hreport, analyze_bundle.
Qed.

Lemma index_products_None products sku :
  (∀ product, product ∈ products → Product.sku product ≠ sku) →
  index_products products !! sku = None.
Proof.
  intros Hnone. unfold index_products.
  assert (∀ m : gmap string (Product.t num),
            foldl (λ result product, <[Product.sku product := product]> result)
                  m products !! sku = m !! sku) as Hfold.
  { induction products as [|product rest IH]; intros m; simpl; [done|].
    rewrite IH by (intros p Hp; apply Hnone; by right).
    apply lookup_insert_ne, Hnone. left. }
  by rewrite Hfold.
Qed.

(** X16: one more item whose SKU is the SKU of no product, the keys being
    ordinary, has cost 0: the revenue the revenue calculator returns for it
    (called without a product) is added in full to the revenue of the seller
    of the record and, being also its profit, to the profit; its quantity is
    added to the counter of that SKU, which starts from 0; the sales count
    and the other sellers do not change. *)
Theorem unknown_sku_item calculateRevenue sellers products before seller_id front item
    k (stats : Stats.t num) :
  let record items := {| Purchase.seller_id := seller_id; Purchase.items := items |} in
  sub_zero (num := num) →
  ordinary_keys sellers products (before ++ [record (front ++ [item])]) →
  (∀ product, product ∈ products → Product.sku product ≠ Item.sku item) →
  last_seller_from 0 sellers seller_id = Some k →
  accumulate calculateRevenue sellers products (before ++ [record front]) !! k
  = Some stats →
  ∃ updated,
    accumulate calculateRevenue sellers products (before ++ [record (front ++ [item])]) !! k
    = Some updated
    ∧ item_cost (index_products products) item = lit_0
    ∧ Stats.revenue updated = Stats.revenue stats + calculateRevenue item None
    ∧ Stats.profit updated = Stats.profit stats + calculateRevenue item None
    ∧ obj_get (Stats.products_sold updated) (Item.sku item)
      = Some (counted (Stats.products_sold stats) (Item.sku item) + Item.quantity item)
    ∧ Stats.sales_count updated = Stats.sales_count stats
    ∧ ∀ j, j ≠ k →
        accumulate calculateRevenue sellers products (before ++ [record (front ++ [item])])
          !! j
        = accumulate calculateRevenue sellers products (before ++ [record front]) !! j.
Proof.
  intros record Hsub _ Hunknown Howner.
  assert (∀ items j,
            accumulate calculateRevenue sellers products (before ++ [record items]) !! j
            = (if decide (k = j)
               then sell calculateRevenue (index_products products) (record items)
               else id)
                <$> accumulate calculateRevenue sellers products before !! j) as Hlast.
  { intros items j. unfold accumulate. rewrite foldl_app. simpl.
    rewrite process_record_lookup, sellerIndex_lookup. simpl. rewrite Howner.
    destruct (decide (Some k = Some j)) as [[= ->]|Hne].
    - by rewrite decide_True.
    - rewrite decide_False; [done|]. by intros ->. }
  rewrite !Hlast, !decide_True by done.
  destruct (accumulate calculateRevenue sellers products before !! k) as [old|];
    [|done].
  simpl. intros [= <-].
  exists (process_item calculateRevenue (index_products products)
            (sell calculateRevenue (index_products products) (record front) old) item).
  split; [f_equal; unfold sell, record; simpl; by rewrite foldl_app|].
  generalize (sell calculateRevenue (index_products products) (record front) old)
    as seller.
  intros seller. apply index_products_None in Hunknown.
  unfold process_item, item_cost, counted. rewrite Hunknown. simpl.
  split; [done|]. split; [done|]. split; [by rewrite Hsub|]. split; [|split; [done|]].
  - destruct (obj_get (Stats.products_sold seller) (Item.sku item)) as [q|] eqn:Hq.
    + destruct (num_truthy q).
      * by rewrite Hq, obj_get_set, decide_True.
      * rewrite obj_get_set, decide_True by done. by rewrite obj_get_set, decide_True.
    + rewrite obj_get_set, decide_True by done. by rewrite obj_get_set, decide_True.
  - intros j Hj. rewrite !Hlast. by rewrite !decide_False by done.
Qed.

End Records.

Section Rankings.
Local Open Scope js_scope.
Implicit Types (calculateRevenue : Item.t float → option (Product.t float) → float)
  (calculateBonus : Z → Z → Stats.t float → float)
  (sellers : list Seller.t) (products : list (Product.t float))
  (purchase_records : list (Purchase.t float)) (customers : list string).



End Rankings.

(** ** Rounding and subtracting zero on binary64 *)

Lemma float_round_zero : round_zero (num := float).
Proof. by vm_compute. Qed.

Lemma float_sub_zero : sub_zero (num := float).
Proof.
  intros a. apply Prim2SF_inj. simpl. rewrite sub_spec.
  change (Prim2SF 0) with (S754_zero false).
  by destruct (Prim2SF a) as [[|]|[|]| |s m e].
Qed.

(** ** The claims on the sample inputs *)

Lemma validation_outcome_witness :
  ∃ entries,
    analyzeSalesData (num := float) (bundle roster [pen] receipts []) default_policies
    = Return entries.
Proof.
  destruct (validation_outcome (num := float) (bundle roster [pen] receipts [])
              default_policies) as (_ & _ & Hpass).
  destruct Hpass as (? & ? & ? & ? & ? & ? & _ & _ & Hreturn).
  - split_and!.
    + eexists. split; [done|]. split_and!; eexists; split; done.
    + eexists. split; [done|]. by eexists.
    + by eexists _, _, _.
  - by eexists.
Defined.




Lemma unknown_seller_skipped_witness :
  accumulate (num := float) calculateSimpleRevenue roster [pen] (receipts ++ [stray])
  = accumulate calculateSimpleRevenue roster [pen] (receipts ++ []).
Proof.
  destruct (unknown_seller_skipped (num := float) calculateSimpleRevenue
              calculateBonusByProfit roster [pen] [] receipts stray [])
    as (_ & Hsame & _); [done..| | |done].
  - unfold ordinary_keys, ordinary. apply (bool_decide_unpack _). by vm_compute.
  - intros seller Hseller. unfold roster in Hseller.
    rewrite !elem_of_cons, elem_of_nil in Hseller.
    by destruct Hseller as [-> | [-> | [-> | []]]].
Defined.

(** C5, as stated, fails for a record that is the only one: with it the
    report is the entry of a seller without sales, without it the input is
    rejected. *)
Lemma lone_unknown_record :
  (∀ seller, seller ∈ [anna] → Seller.id seller ≠ Purchase.seller_id (stray (num := float)))
  ∧ analyzeSalesData (num := float) (bundle [anna] [pen] [stray] []) default_policies
    = Return [idle_entry anna 0%float]
  ∧ analyzeSalesData (num := float) (bundle [anna] [pen] [] []) default_policies
    = Throw InvalidInputData.
Proof.
  split_and!; [|by vm_compute..].
  by intros seller ->%list_elem_of_singleton.
Qed.

Lemma unknown_sku_item_witness :
  ∃ stats updated,
    accumulate (num := float) calculateSimpleRevenue roster [pen]
      [receipt "seller_2" []] !! 1%nat = Some stats
    ∧ accumulate calculateSimpleRevenue roster [pen]
        [receipt "seller_2" ["SKU_404"]] !! 1%nat = Some updated
    ∧ Stats.profit updated
      = (Stats.profit stats + calculateSimpleRevenue (sold "SKU_404") None)%float.
Proof.
  exists (count_sale (init_stats boris)).
  destruct (unknown_sku_item (num := float) calculateSimpleRevenue roster [pen] []
              "seller_2" [] (sold "SKU_404") 1 (count_sale (init_stats boris))
              float_sub_zero)
    as (updated & Hupdated & _ & _ & Hprofit & _).
  - unfold ordinary_keys, ordinary. apply (bool_decide_unpack _). by vm_compute.
  - intros product Hproduct. rewrite !elem_of_cons, elem_of_nil in Hproduct.
    by destruct Hproduct as [-> | []].
  - reflexivity.
  - reflexivity.
  - by exists updated.
Defined.





(** ** Further properties of the program *)

Section Options.
Context {num : Type} `{JsNumber num}.

(** X1: with well-formed data the error tells what is wrong with the options: no
    object; an object in which [calculateRevenue] or [calculateBonus] is
    missing or falsy, whatever the other one is; or two truthy values of which
    one is not a function. *)
Theorem options_errors (data : data_arg num) (options : options_arg num) :
  required_collections data → customers_array data →
  (analyzeSalesData data options = Throw OptionsNotAnObject
   ↔ options = OptionsFalsy ∨ options = OptionsNotObject)
  ∧ (analyzeSalesData data options = Throw OptionsMissingFunctions
     ↔ ∃ o, options = OptionsObject o
            ∧ (Options.calculateRevenue o = PropFalsy
               ∨ Options.calculateBonus o = PropFalsy))
  ∧ (analyzeSalesData data options = Throw OptionsNotFunctions
     ↔ ∃ o, options = OptionsObject o
            ∧ Options.calculateRevenue o ≠ PropFalsy
            ∧ Options.calculateBonus o ≠ PropFalsy
            ∧ (Options.calculateRevenue o = PropNotFunction
               ∨ Options.calculateBonus o = PropNotFunction)).
Proof.
  intros Hreq Hcust.
  assert (invalid_data data = false) as Hdata by by apply invalid_data_false.
  unfold analyzeSalesData. rewrite Hdata.
  destruct options as [| |[[| |cr] [| |cb]]]; simpl; split_and!; split;
    try done; try (intros [?|?]; done); try (by left); try (by right);
    try (intros (o & [= <-] & Hfalsy); simpl in *; by destruct Hfalsy);
    try (intros (o & [= <-] & ? & ? & Hnot); simpl in *; by destruct Hnot);
    try (intros _; eexists; split; [done|]; simpl; by auto).
Qed.

End Options.





Section SalesCount.
Context {num : Type} `{JsNumber num}.
Implicit Types (calculateRevenue : Item.t num → option (Product.t num) → num)
  (calculateBonus : Z → Z → Stats.t num → num)
  (sellers : list Seller.t) (products : list (Product.t num))
  (purchase_records : list (Purchase.t num)) (customers : list string).




End SalesCount.

Lemma Object_entries_perm {V : Type} (o : list (string * V)) : Object_entries o ≡ₚ o.
Proof.
  unfold Object_entries. rewrite js_sort_perm.
  rewrite <- (filter_app_complement (λ e, is_array_index e.1 = true) o) at 3.
  f_equiv. apply reflexive_eq, list_filter_iff. intros e.
  by destruct (is_array_index e.1).
Qed.

Section TopSkus.
Context {num : Type} `{JsNumber num}.
Implicit Types (calculateRevenue : Item.t num → option (Product.t num) → num)
  (calculateBonus : Z → Z → Stats.t num → num)
  (sellers : list Seller.t) (products : list (Product.t num))
  (purchase_records : list (Purchase.t num)) (customers : list string).

(** Before the cut to ten, the top products are the properties of
    [products_sold] in another order. *)
Lemma ranked_skus_perm (sold : list (string * num)) :
  Top.sku
    <$> js_sort quantity_after
          ((λ '(sku, quantity), {| Top.sku := sku; Top.quantity := quantity |})
             <$> Object_entries sold)
  ≡ₚ sold.*1.
Proof.
  rewrite js_sort_perm, <- list_fmap_compose, Object_entries_perm.
  apply reflexive_eq, list_fmap_ext. by intros i [sku quantity] _.
Qed.

(** X3: with ordinary keys, the top products of a seller list no SKU twice
    and only SKUs the seller sold, as many as there are, up to ten; with at
    most ten SKUs sold they list every one of them, also a SKU of no product
    or of quantity 0. *)
Theorem top_products_skus calculateRevenue calculateBonus
    sellers products purchase_records customers :
  sellers ≠ [] → products ≠ [] → purchase_records ≠ [] →
  ordinary_keys sellers products purchase_records →
  ∃ entries,
    analyzeSalesData (bundle sellers products purchase_records customers)
                     (policies calculateRevenue calculateBonus) = Return entries
    ∧ ∀ entry, entry ∈ entries →
        ∃ j seller,
          sellers !! j = Some seller
          ∧ Entry.seller_id entry = Seller.id seller
          ∧ let sold := first_seen (Item.sku <$> attributed_items sellers purchase_records j) in
            let top := Top.sku <$> Entry.top_products entry in
            NoDup top
            ∧ length top = length sold `min` 10
            ∧ top ⊆ sold
            ∧ (length sold ≤ 10 → top ≡ₚ sold).
Proof.
  intros Hs Hp Hr _. eexists. split; [by apply analyze_bundle|].
  intros entry [r Hentry]%list_elem_of_lookup_1. rewrite report_lookup in Hentry.
  destruct (rank _ !! r) as [stats|] eqn:Hstats; [|done].
  simpl in Hentry. simplify_eq.
  destruct (rank_accumulate_elem calculateRevenue sellers products purchase_records stats)
    as (j & seller & Hj & ->); [by eapply list_elem_of_lookup_2|].
  exists j, seller. split; [done|]. split; [done|]. simpl.
  set (items := attributed_items sellers purchase_records j).
  assert (first_seen (Item.sku <$> items) = (foldl count_item [] items).*1) as ->.
  { by rewrite count_items_keys. }
  unfold top_products_of. rewrite fmap_take.
  pose proof (ranked_skus_perm (foldl count_item [] items)) as Hperm.
  assert (NoDup (foldl count_item [] items).*1) as Hnodup.
  { rewrite count_items_keys. apply first_seen_step_NoDup, NoDup_nil_2. }
  split_and!.
  - eapply sublist_NoDup; [|apply sublist_take]. by rewrite Hperm.
  - rewrite length_take, Hperm. lia.
  - intros k Hk%subseteq_take. by rewrite Hperm in Hk.
  - intros Hfew. rewrite take_ge; [done|]. by rewrite Hperm.
Qed.

End TopSkus.


Section Steps.
Context {num : Type} `{JsNumber num}.
Local Open Scope js_scope.
Implicit Types (calculateRevenue : Item.t num → option (Product.t num) → num)
  (calculateBonus : Z → Z → Stats.t num → num)
  (sellers : list Seller.t) (products : list (Product.t num))
  (purchase_records : list (Purchase.t num)) (customers : list string).

(** X4: of several products with one SKU the last one is the product of the
    index: its purchase price is the one that the cost and the profit of an
    item of that SKU are computed from, and it is the product handed to the
    revenue calculator. *)
Theorem last_product_wins calculateRevenue before product after
    (seller : Stats.t num) item :
  (∀ later, later ∈ after → Product.sku later ≠ Product.sku product) →
  Item.sku item = Product.sku product →
  let productIndex := index_products (before ++ product :: after) in
  let updated := process_item calculateRevenue productIndex seller item in
  productIndex !! Item.sku item = Some product
  ∧ item_cost productIndex item = Product.purchase_price product * Item.quantity item
  ∧ Stats.revenue updated = Stats.revenue seller + calculateRevenue item (Some product)
  ∧ Stats.profit updated
    = Stats.profit seller
      + (calculateRevenue item (Some product)
         - Product.purchase_price product * Item.quantity item).
Proof.
  intros Hlast Hsku. simpl.
  assert (index_products (before ++ product :: after) !! Item.sku item = Some product)
    as Hindex.
  { unfold index_products. rewrite foldl_app, Hsku. simpl.
    generalize (foldl (λ result p, <[Product.sku p := p]> result)
                      (∅ : gmap string (Product.t num)) before) as m.
    intros m.
    assert (∀ m' : gmap string (Product.t num),
              m' !! Product.sku product = Some product →
              foldl (λ result p, <[Product.sku p := p]> result) m' after
                !! Product.sku product = Some product) as Hfold.
    { induction after as [|later rest IH]; intros m' Hm'; simpl; [done|].
      apply IH; [intros p Hp; apply Hlast; by right|].
      rewrite lookup_insert_ne; [done|]. apply Hlast. left. }
    apply Hfold, lookup_insert_eq. }
  unfold process_item, item_cost. rewrite Hindex. by simpl.
Qed.




End Steps.

(** ** The policies of the other variants *)

Section Variants.
Context {num : Type} `{JsNumber num}.
Local Open Scope js_scope.

Lemma guarded_bonus_in_range (index total : Z) (seller : Stats.t num) :
  (0 ≤ index < total)%Z →
  Unnamed.calculateBonusByProfit index total seller
  = calculateBonusByProfit index total seller.
Proof.
  intros Hrange. unfold Unnamed.calculateBonusByProfit, calculateBonusByProfit.
  destruct (Z.leb_spec total 1); [|done].
  by assert (index = 0)%Z as -> by lia.
Qed.

(** X11: the guard [total <= 1] of the bonus of [src/unnamed/part_000] never
    decides anything inside the program: every rank is below the number of
    sellers, so with either bonus function [analyzeSalesData] returns the same
    report or throws the same error. *)
Theorem bonus_guard_redundant (data : data_arg num) calculateRevenue :
  analyzeSalesData data (policies calculateRevenue Unnamed.calculateBonusByProfit)
  = analyzeSalesData data (policies calculateRevenue calculateBonusByProfit).
Proof.
  unfold analyzeSalesData. destruct (invalid_data data); [done|]. simpl.
  f_equal. unfold report. f_equal. unfold assign. apply imap_ext.
  intros index seller Hlookup. simpl. f_equal.
  apply guarded_bonus_in_range. apply lookup_lt_Some in Hlookup. lia.
Qed.

End Variants.

(** The revenue of [src/unnamed/part_000] and the one of [src/main.js] differ:
    for three units at 0.1 with a discount of 10 they return neighbouring
    doubles. *)
Example revenue_variants_on_doubles :
  Unnamed.calculateSimpleRevenue dime None ≠ calculateSimpleRevenue dime None.
Proof. apply float_neq. by vm_compute. Qed.

(** The order of the records matters, addition on binary64 not being
    associative: 1e16 + 1 + 1 is 1e16, and 1 + 1 + 1e16 is 1e16 + 2. *)
Example record_order_on_doubles :
  [priced 1e16; priced 1; priced 1] ≡ₚ [priced 1; priced 1; priced 1e16]
  ∧ (∃ entry, analyzeSalesData (bundle [anna] [pen] [priced 1e16; priced 1; priced 1] [])
                default_policies = Return [entry]
              ∧ Entry.revenue entry = 1e16%float)
  ∧ (∃ entry, analyzeSalesData (bundle [anna] [pen] [priced 1; priced 1; priced 1e16] [])
                default_policies = Return [entry]
              ∧ Entry.revenue entry = 10000000000000002%float).
Proof.
  split_and!.
  - by rewrite (Permutation_app_comm [priced 1e16] [priced 1; priced 1]).
  - eexists. split; by vm_compute.
  - eexists. split; by vm_compute.
Qed.

(** ** The order of the products *)

Section ProductOrder.
Context {num : Type} `{JsNumber num}.

Lemma index_products_perm (products products' : list (Product.t num)) :
  NoDup (Product.sku <$> products) → products ≡ₚ products' →
  index_products products = index_products products'.
Proof.
  intros Hnodup Hperm. unfold index_products. generalize (∅ : gmap string (Product.t num)).
  induction Hperm as [|x l l' Hperm IH|x y l|l l' l'' Hperm1 IH1 Hperm2 IH2];
    intros m; simpl.
  - done.
  - apply IH. by apply NoDup_cons in Hnodup as [_ ?].
  - f_equal. apply insert_insert_ne.
    apply NoDup_cons in Hnodup as [Hx _]. intros Heq. apply Hx. rewrite Heq. left.
  - rewrite IH1 by done. apply IH2. by rewrite <- Hperm1.
Qed.

(** X13: when no two products share a SKU, the order of the products changes
    nothing: [analyzeSalesData] returns the same report, or throws the same
    error. *)
Theorem product_order_irrelevant sellers (products products' : list (Product.t num))
    purchase_records customers (options : options_arg num) :
  NoDup (Product.sku <$> products) → products ≡ₚ products' →
  analyzeSalesData (bundle sellers products purchase_records customers) options
  = analyzeSalesData (bundle sellers products' purchase_records customers) options.
Proof.
  intros Hnodup Hperm. unfold analyzeSalesData, invalid_data. simpl.
  rewrite <- (Permutation_length Hperm).
  unfold report, accumulate. by rewrite (index_products_perm _ _ Hnodup Hperm).
Qed.

End ProductOrder.

(** ** The further properties on the sample inputs *)

Lemma options_errors_witness :
  analyzeSalesData (num := float) (bundle roster [pen] receipts []) OptionsFalsy
  = Throw OptionsNotAnObject.
Proof.
  destruct (options_errors (num := float) (bundle roster [pen] receipts []) OptionsFalsy)
    as (Hobject & _).
  - eexists. split; [done|]. split_and!; eexists; split; done.
  - eexists. split; [done|]. by eexists.
  - apply Hobject. by left.
Defined.


Lemma top_products_skus_witness :
  ∃ entries,
    analyzeSalesData (num := float) (bundle roster [pen] receipts []) default_policies
    = Return entries
    ∧ ∀ entry, entry ∈ entries → NoDup (Top.sku <$> Entry.top_products entry).
Proof.
  destruct (top_products_skus (num := float) calculateSimpleRevenue
              calculateBonusByProfit roster [pen] receipts [])
    as (entries & Hreturn & Htop); [done..| |].
  { unfold ordinary_keys, ordinary. apply (bool_decide_unpack _). by vm_compute. }
  exists entries. split; [done|]. intros entry Hentry.
  by destruct (Htop entry Hentry) as (j & seller & _ & _ & Hnodup & _).
Defined.

Lemma last_product_wins_witness :
  index_products [pen; refill] !! "SKU_001" = Some refill
  ∧ item_cost (index_products [pen; refill]) (sold "SKU_001") = 100%float.
Proof.
  destruct (last_product_wins calculateSimpleRevenue [pen] refill []
              (init_stats anna) (sold "SKU_001"))
    as (Hindex & Hcost & _).
  - intros later Hlater. by apply elem_of_nil in Hlater.
  - reflexivity.
  - split; [exact Hindex|]. etransitivity; [exact Hcost|by vm_compute].
Defined.




Lemma product_order_irrelevant_witness :
  analyzeSalesData (bundle roster [pen; ink] receipts []) default_policies
  = analyzeSalesData (bundle roster [ink; pen] receipts []) default_policies.
Proof.
  apply (product_order_irrelevant roster [pen; ink] [ink; pen] receipts []
           default_policies).
  - apply NoDup_cons. split; [|apply NoDup_singleton].
    intros Hin%list_elem_of_singleton. discriminate Hin.
  - apply perm_swap.
Defined.
